(** * release.sh: the image release script, embedded and verified

    The script builds the frontend and backend container images, logs in to
    the registry, tags and pushes them, and removes the local images.  It runs
    under [set -e]: a simple command that returns a non-zero status outside a
    condition ([if], [!], [||]) ends the whole script with that status.

    The embedding is a state-and-exit monad over a small world: the working
    directory, the files below the start directory, the lines handed to
    [echo], and the external commands run so far with their statuses.  What
    the external programs (docker, aws) do is given by a [Host]. *)

From stdpp Require Import gmap strings list fin_maps.
From Stdlib Require Import String List Arith Lia PrimFloat.
Import ListNotations.
Local Open Scope string_scope.

(** ** Data *)

Module Sh.

(** The external programs the script spawns, with the arguments it passes. *)
Inductive Call :=
| DockerBuildxBuild (platform tag context : string)
    (* docker buildx build --platform P --load -t T CONTEXT *)
| AwsEcrGetLoginPassword (region : string)
    (* aws ecr get-login-password --region R *)
| DockerLogin (username stdin registry : string)
    (* docker login --username U --password-stdin REGISTRY, reading STDIN *)
| DockerTag (source target : string)
| DockerPush (ref : string)
| DockerRmi (ref : string).

(** One external command as it ran: where, what, and its exit status. *)
Record Event := { ev_cwd : list string; ev_call : Call; ev_status : nat }.

(** What the script hands to [echo]; [EchoE] is [echo -e], whose rendering of
    backslash escapes is the shell's business and is not interpreted here. *)
Inductive Echo :=
| EchoE (text : string)
| EchoPlain (text : string).

(** The regular files below the start directory, by relative path, with their
    content.  The paths the script copies and moves to are taken not to be
    directories. *)
Record World := {
  cwd : list string;          (* directories entered below the start directory *)
  fs : gmap string string;    (* regular files *)
  out : list Echo;            (* the script's own output, oldest first *)
  events : list Event;        (* external commands, oldest first *)
}.

(** What an external command returns: exit status, standard output, and the
    files as it leaves them. *)
Record Outcome := { status : nat; stdout : string; fs_after : gmap string string }.

(** The machine the script runs on.  [command_v name] is the status of
    [command -v name], [dir_exists path] tells whether [cd] into [path] works,
    and [exec] runs an external command given the commands run before it, the
    working directory and the files. *)
Record Host := {
  command_v : string -> bool;
  dir_exists : string -> bool;
  exec : list Event -> list string -> gmap string string -> Call -> Outcome;
}.

(** Control flow of a step: go on to the next command, or leave the script. *)
Inductive Flow (A : Type) :=
| Next (a : A)
| Exit (code : nat).
Arguments Next {A} a.
Arguments Exit {A} code.

Definition M (A : Type) : Type := World -> Flow A * World.

Definition ret {A} (a : A) : M A := fun w => (Next a, w).

Definition bind {A B} (m : M A) (k : A -> M B) : M B :=
  fun w =>
    match m w with
    | (Next a, w') => k a w'
    | (Exit n, w') => (Exit n, w')
    end.

Definition exit {A} (n : nat) : M A := fun w => (Exit n, w).

Notation "x <- m ;; k" := (bind m (fun x => k))
  (at level 100, m at next level, k at level 200, right associativity).
Notation "m ;; k" := (bind m (fun _ => k))
  (at level 100, k at level 200, right associativity).

(** The exit status of a finished run: falling off the end of the script
    leaves the status of its last command, which under [set -e] is 0. *)
Definition exit_status (r : Flow unit * World) : nat :=
  match fst r with
  | Next _ => 0
  | Exit n => n
  end.

Definition calls (w : World) : list Call := map ev_call (events w).

(** ** Shell primitives *)

Definition resolve (dir : list string) (name : string) : string :=
  String.concat "/" (dir ++ [name]).

Definition is_file (f : gmap string string) (path : string) : bool :=
  match f !! path with
  | Some _ => true
  | None => false
  end.

(** The files after [cp src dst] and after [mv src dst]. *)
Definition copied (f : gmap string string) (src dst : string) : gmap string string :=
  match f !! src with
  | Some c => <[dst := c]> f
  | None => f
  end.

Definition moved (f : gmap string string) (src dst : string) : gmap string string :=
  match f !! src with
  | Some c => <[dst := c]> (delete src f)
  | None => f
  end.

Definition set_fs (f : gmap string string) (w : World) : World :=
  {| cwd := cwd w; fs := f; out := out w; events := events w |}.

Definition set_cwd (d : list string) (w : World) : World :=
  {| cwd := d; fs := fs w; out := out w; events := events w |}.

Definition say (e : Echo) : M unit :=
  fun w => (Next tt,
            {| cwd := cwd w; fs := fs w; out := out w ++ [e]; events := events w |}).

Definition echo (s : string) : M unit := say (EchoPlain s).
Definition echo_e (s : string) : M unit := say (EchoE s).

(** [[ -f name ]] *)
Definition test_f (name : string) : M bool :=
  fun w => (Next (is_file (fs w) (resolve (cwd w) name)), w).

(** A simple command's status under [set -e]. *)
Definition errexit (st : nat) : M unit :=
  if Nat.eqb st 0 then ret tt else exit st.

(** [cp src dst] and [mv src dst]: both fail on a missing source. *)
Definition cp (src dst : string) : M unit :=
  fun w =>
    if is_file (fs w) (resolve (cwd w) src)
    then (Next tt, set_fs (copied (fs w) (resolve (cwd w) src) (resolve (cwd w) dst)) w)
    else (Exit 1, w).

Definition mv (src dst : string) : M unit :=
  fun w =>
    if is_file (fs w) (resolve (cwd w) src)
    then (Next tt, set_fs (moved (fs w) (resolve (cwd w) src) (resolve (cwd w) dst)) w)
    else (Exit 1, w).

Section External.

Variable host : Host.

(** [cd name]: [..] leaves the directory entered last; any other name must be
    a directory below the current one. *)
Definition cd (name : string) : M unit :=
  fun w =>
    if String.eqb name ".." then (Next tt, set_cwd (removelast (cwd w)) w)
    else if dir_exists host (resolve (cwd w) name)
         then (Next tt, set_cwd (cwd w ++ [name]) w)
         else (Exit 1, w).

(** Run an external command to its end and record it; its status is returned,
    not acted upon. *)
Definition spawn (c : Call) : M Outcome :=
  fun w =>
    let o := exec host (events w) (cwd w) (fs w) c in
    (Next o,
     {| cwd := cwd w; fs := fs_after o; out := out w;
        events := events w ++ [{| ev_cwd := cwd w; ev_call := c; ev_status := status o |}] |}).

(** A simple command under [set -e]. *)
Definition run (c : Call) : M unit :=
  o <- spawn c ;; errexit (status o).

(** [cmd 2>/dev/null || true] *)
Definition run_or_true (c : Call) : M unit :=
  o <- spawn c ;; ret tt.

End External.

End Sh.

Import Sh.

#[global] Instance Call_eq_dec : EqDecision Call.
Proof. solve_decision. Defined.

#[global] Instance Event_eq_dec : EqDecision Event.
Proof. solve_decision. Defined.

(** ** The script, top to bottom *)

Section Script.

Variable host : Host.

Local Abbreviation run := (Sh.run host).
Local Abbreviation run_or_true := (Sh.run_or_true host).
Local Abbreviation spawn := (Sh.spawn host).
Local Abbreviation cd := (Sh.cd host).

Definition FRONTEND_IMAGE_NAME := "agents/frontend".
Definition BACKEND_IMAGE_NAME := "agents/backend".
Definition IMAGE_TAG := "latest".
Definition ECR_URL := "654553612832.dkr.ecr.eu-central-1.amazonaws.com".
Definition AWS_REGION := "eu-central-1".

Definition RED := "\033[0;31m".
Definition GREEN := "\033[0;32m".
Definition YELLOW := "\033[1;33m".
Definition BLUE := "\033[0;34m".
Definition NC := "\033[0m".

Definition print_status (s : string) : M unit :=
  echo_e (BLUE +:+ "[INFO]" +:+ NC +:+ " " +:+ s).

Definition print_success (s : string) : M unit :=
  echo_e (GREEN +:+ "[SUCCESS]" +:+ NC +:+ " " +:+ s).

Definition print_warning (s : string) : M unit :=
  echo_e (YELLOW +:+ "[WARNING]" +:+ NC +:+ " " +:+ s).

Definition print_error (s : string) : M unit :=
  echo_e (RED +:+ "[ERROR]" +:+ NC +:+ " " +:+ s).

(** Called only as the condition of an [if !], so its status is a value. *)
Definition command_exists (name : string) : M bool :=
  ret (command_v host name).

Definition check_prerequisites : M unit :=
  print_status "Checking prerequisites..." ;;
  d <- command_exists "docker" ;;
  (if negb d then
     print_error "Docker is not installed or not in PATH" ;; exit 1
   else ret tt) ;;
  a <- command_exists "aws" ;;
  (if negb a then
     print_error "AWS CLI is not installed or not in PATH" ;; exit 1
   else ret tt) ;;
  p <- command_exists "pnpm" ;;
  (if negb p then
     print_warning "pnpm not found, will use npm for frontend build"
   else ret tt) ;;
  print_success "Prerequisites check passed".

(** [aws ecr get-login-password --region $AWS_REGION |
     docker login --username AWS --password-stdin "$ECR_URL"]:
    without [pipefail] the pipeline's status is that of [docker login]. *)
Definition ecr_login : M unit :=
  pw <- spawn (AwsEcrGetLoginPassword AWS_REGION) ;;
  o <- spawn (DockerLogin "AWS" (stdout pw) ECR_URL) ;;
  errexit (status o).

Definition build_and_upload_frontend : M unit :=
  print_status "Building and uploading frontend image..." ;;
  cd "frontend" ;;
  b <- test_f ".env.local" ;;
  (if b then
     cp ".env.local" ".env.local.backup" ;;
     print_status "Backed up .env.local"
   else ret tt) ;;
  print_status "Building frontend Docker image..." ;;
  run (DockerBuildxBuild "linux/amd64" (FRONTEND_IMAGE_NAME +:+ ":" +:+ IMAGE_TAG) ".") ;;
  print_status "Logging in to ECR..." ;;
  ecr_login ;;
  print_status "Tagging and pushing frontend image..." ;;
  run (DockerTag (FRONTEND_IMAGE_NAME +:+ ":" +:+ IMAGE_TAG)
                 (ECR_URL +:+ "/" +:+ FRONTEND_IMAGE_NAME +:+ ":" +:+ IMAGE_TAG)) ;;
  run (DockerPush (ECR_URL +:+ "/" +:+ FRONTEND_IMAGE_NAME +:+ ":" +:+ IMAGE_TAG)) ;;
  r <- test_f ".env.local.backup" ;;
  (if r then
     mv ".env.local.backup" ".env.local" ;;
     print_status "Restored .env.local"
   else ret tt) ;;
  cd ".." ;;
  print_success "Frontend image uploaded successfully".

Definition build_and_upload_backend : M unit :=
  print_status "Building and uploading backend image..." ;;
  cd "backend" ;;
  print_status "Building backend Docker image..." ;;
  run (DockerBuildxBuild "linux/amd64" (BACKEND_IMAGE_NAME +:+ ":" +:+ IMAGE_TAG) ".") ;;
  print_status "Ensuring ECR login..." ;;
  ecr_login ;;
  print_status "Tagging and pushing backend image..." ;;
  run (DockerTag (BACKEND_IMAGE_NAME +:+ ":" +:+ IMAGE_TAG)
                 (ECR_URL +:+ "/" +:+ BACKEND_IMAGE_NAME +:+ ":" +:+ IMAGE_TAG)) ;;
  run (DockerPush (ECR_URL +:+ "/" +:+ BACKEND_IMAGE_NAME +:+ ":" +:+ IMAGE_TAG)) ;;
  cd ".." ;;
  print_success "Backend image uploaded successfully".

Definition cleanup_local_images : M unit :=
  print_status "Cleaning up local images..." ;;
  run_or_true (DockerRmi (FRONTEND_IMAGE_NAME +:+ ":" +:+ IMAGE_TAG)) ;;
  run_or_true (DockerRmi (BACKEND_IMAGE_NAME +:+ ":" +:+ IMAGE_TAG)) ;;
  run_or_true (DockerRmi (ECR_URL +:+ "/" +:+ FRONTEND_IMAGE_NAME +:+ ":" +:+ IMAGE_TAG)) ;;
  run_or_true (DockerRmi (ECR_URL +:+ "/" +:+ BACKEND_IMAGE_NAME +:+ ":" +:+ IMAGE_TAG)) ;;
  print_success "Local images cleaned up".

Definition display_image_info : M unit :=
  print_status "Image information:" ;;
  echo ("Frontend: " +:+ ECR_URL +:+ "/" +:+ FRONTEND_IMAGE_NAME +:+ ":" +:+ IMAGE_TAG) ;;
  echo ("Backend: " +:+ ECR_URL +:+ "/" +:+ BACKEND_IMAGE_NAME +:+ ":" +:+ IMAGE_TAG) ;;
  echo ("Region: " +:+ AWS_REGION).

Definition main : M unit :=
  print_status "Starting image upload process..." ;;
  check_prerequisites ;;
  display_image_info ;;
  build_and_upload_frontend ;;
  build_and_upload_backend ;;
  cleanup_local_images ;;
  print_success "All images uploaded successfully!" ;;
  print_status "You can now use these images in your deployment.".

Definition usage (arg0 : string) : M unit :=
  echo ("Usage: " +:+ arg0 +:+ " [OPTION]") ;;
  echo "" ;;
  echo "Options:" ;;
  echo "  --frontend-only    Build and upload only the frontend image" ;;
  echo "  --backend-only     Build and upload only the backend image" ;;
  echo "  --help, -h         Show this help message" ;;
  echo "" ;;
  echo "Default behavior: Build and upload both frontend and backend images".

(** [case "${1:-}" in ... esac]: [arg0] is [$0], [args] the positional
    parameters; an unset [$1] reads as the empty string. *)
Definition script (arg0 : string) (args : list string) : M unit :=
  let a := hd "" args in
  if String.eqb a "--frontend-only" then
    print_status "Building and uploading frontend only..." ;;
    check_prerequisites ;;
    build_and_upload_frontend ;;
    cleanup_local_images ;;
    print_success "Frontend image uploaded successfully!"
  else if String.eqb a "--backend-only" then
    print_status "Building and uploading backend only..." ;;
    check_prerequisites ;;
    build_and_upload_backend ;;
    cleanup_local_images ;;
    print_success "Backend image uploaded successfully!"
  else if String.eqb a "--help" || String.eqb a "-h" then
    usage arg0 ;;
    exit 0
  else if String.eqb a "" then
    main
  else
    print_error ("Unknown option: " +:+ a) ;;
    echo "Use --help for usage information" ;;
    exit 1.

End Script.

(** ** Start states and machines used in the examples *)

(** The script starts in the start directory, having printed and run nothing. *)
Definition start (f : gmap string string) : World :=
  {| cwd := []; fs := f; out := []; events := [] |}.

Definition is_build (c : Call) : bool :=
  match c with DockerBuildxBuild _ _ _ => true | _ => false end.
Definition is_login (c : Call) : bool :=
  match c with DockerLogin _ _ _ => true | _ => false end.
Definition is_tag (c : Call) : bool :=
  match c with DockerTag _ _ => true | _ => false end.
Definition is_push (c : Call) : bool :=
  match c with DockerPush _ => true | _ => false end.
Definition is_rmi (c : Call) : bool :=
  match c with DockerRmi _ => true | _ => false end.

(** The options under which the script releases something. *)
Definition releases (a : string) : bool :=
  String.eqb a "" || String.eqb a "--frontend-only" || String.eqb a "--backend-only".

(** A machine with every tool installed and both component directories in
    place, on which every command succeeds and touches no file; the password
    command prints [token]. *)
Definition happy_host : Host :=
  {| command_v := fun _ => true;
     dir_exists := fun p => String.eqb p "frontend" || String.eqb p "backend";
     exec := fun _ _ f c =>
       {| status := 0;
          stdout := match c with AwsEcrGetLoginPassword _ => "token" | _ => "" end;
          fs_after := f |} |}.

(** The same machine with one tool taken away. *)
Definition without (tool : string) (h : Host) : Host :=
  {| command_v := fun n => if String.eqb n tool then false else command_v h n;
     dir_exists := dir_exists h;
     exec := exec h |}.

(** A machine on which the commands picked by [p] fail with status 1 and
    touch nothing; the others behave as on [h]. *)
Definition failing (p : Call -> bool) (h : Host) : Host :=
  {| command_v := command_v h;
     dir_exists := dir_exists h;
     exec := fun hist d f c =>
       if p c then {| status := 1; stdout := ""; fs_after := f |}
       else exec h hist d f c |}.

(** A machine whose registry accepts the first login of a run and refuses
    every later one. *)
Definition second_login_fails : Host :=
  {| command_v := fun _ => true;
     dir_exists := dir_exists happy_host;
     exec := fun hist d f c =>
       if is_login c && existsb (fun e => is_login (ev_call e)) hist
       then {| status := 1; stdout := ""; fs_after := f |}
       else exec happy_host hist d f c |}.

(** A machine whose image build overwrites the frontend's [.env.local] and
    returns status [st]. *)
Definition scribbling_build (st : nat) : Host :=
  {| command_v := fun _ => true;
     dir_exists := dir_exists happy_host;
     exec := fun hist d f c =>
       if is_build c
       then {| status := st; stdout := "";
               fs_after := <["frontend/.env.local" := "API_URL=http://build"]> f |}
       else exec happy_host hist d f c |}.

(** ** Vocabulary of the statements *)

(** The status lines as [print_status] and its siblings emit them. *)
Definition info (s : string) : Echo := EchoE (BLUE +:+ "[INFO]" +:+ NC +:+ " " +:+ s).
Definition success (s : string) : Echo := EchoE (GREEN +:+ "[SUCCESS]" +:+ NC +:+ " " +:+ s).
Definition warning (s : string) : Echo := EchoE (YELLOW +:+ "[WARNING]" +:+ NC +:+ " " +:+ s).
Definition error (s : string) : Echo := EchoE (RED +:+ "[ERROR]" +:+ NC +:+ " " +:+ s).

Definition echo_eqb (a b : Echo) : bool :=
  match a, b with
  | EchoE s, EchoE t => String.eqb s t
  | EchoPlain s, EchoPlain t => String.eqb s t
  | _, _ => false
  end.

Definition printed (e : Echo) (w : World) : bool := existsb (echo_eqb e) (out w).

(** The commands whose failure ends the script: the builds and the three
    registry steps.  The password command feeds a pipe and the removals are
    followed by [|| true]. *)
Definition gating (c : Call) : bool :=
  is_build c || is_login c || is_tag c || is_push c.

(** The event ran in the component directory [dir]. *)
Definition in_dir (dir : string) (e : Event) : bool :=
  match ev_cwd e with
  | [d] => String.eqb d dir
  | _ => false
  end.

(** The fully-qualified remote reference, [registry/repository:tag]. *)
Definition image_reference (registry repository tag : string) : string :=
  registry +:+ "/" +:+ repository +:+ ":" +:+ tag.

(** The directory of the component a releasing option starts with. *)
Definition first_component (a : string) : string :=
  if String.eqb a "--backend-only" then "backend" else "frontend".

Definition first_image (a : string) : string :=
  if String.eqb a "--backend-only" then BACKEND_IMAGE_NAME else FRONTEND_IMAGE_NAME.

(** The four references [cleanup_local_images] removes. *)
Definition cleanup_refs : list Call :=
  [ DockerRmi (FRONTEND_IMAGE_NAME +:+ ":" +:+ IMAGE_TAG);
    DockerRmi (BACKEND_IMAGE_NAME +:+ ":" +:+ IMAGE_TAG);
    DockerRmi (image_reference ECR_URL FRONTEND_IMAGE_NAME IMAGE_TAG);
    DockerRmi (image_reference ECR_URL BACKEND_IMAGE_NAME IMAGE_TAG) ].

(** The external commands never change the file at [path]. *)
Definition leaves_alone (h : Host) (path : string) : Prop :=
  forall hist d f c, fs_after (exec h hist d f c) !! path = f !! path.

(** The external command that ran last. *)
Definition last_event (w : World) : option Event := hd_error (rev (events w)).

(** Two machines that differ at most in what image removal does. *)
Definition same_but_rmi (h1 h2 : Host) : Prop :=
  (forall n, command_v h1 n = command_v h2 n) /\
  (forall p, dir_exists h1 p = dir_exists h2 p) /\
  (forall hist d f c, is_rmi c = false -> exec h1 hist d f c = exec h2 hist d f c).

(** ** Further vocabulary: the rest of the script *)

Definition is_password (c : Call) : bool :=
  match c with AwsEcrGetLoginPassword _ => true | _ => false end.

(** A line as [print_error] emits it. *)
Definition is_error_line (e : Echo) : bool :=
  match e with
  | EchoE s => String.prefix (RED +:+ "[ERROR]") s
  | EchoPlain _ => false
  end.

(** The line a releasing mode prints last. *)
Definition closing_line (a : string) : string :=
  if String.eqb a "--frontend-only" then "Frontend image uploaded successfully!"
  else if String.eqb a "--backend-only" then "Backend image uploaded successfully!"
  else "All images uploaded successfully!".


(** The external commands change no file at all. *)
Definition touches_no_file (h : Host) : Prop :=
  forall hist d f c, fs_after (exec h hist d f c) = f.

(** Two machines that differ at most in whether pnpm is installed. *)
Definition same_but_pnpm (h1 h2 : Host) : Prop :=
  (forall n, n <> "pnpm" -> command_v h1 n = command_v h2 n) /\
  (forall p, dir_exists h1 p = dir_exists h2 p) /\
  (forall hist d f c, exec h1 hist d f c = exec h2 hist d f c).

(** Two worlds that differ at most in what has been printed. *)
Definition same_but_out (w1 w2 : World) : Prop :=
  cwd w1 = cwd w2 /\ fs w1 = fs w2 /\ events w1 = events w2.

(** Two steps that, from worlds that differ at most in the output, go the
    same way with the same value and end in such worlds again. *)
Definition alike {A} (m1 m2 : M A) : Prop :=
  forall w1 w2, same_but_out w1 w2 ->
    fst (m1 w1) = fst (m2 w2) /\ same_but_out (snd (m1 w1)) (snd (m2 w2)).


(** Every build in [l] that returned status 0 is directly followed by the
    password command and then the login, both in the build's directory. *)
Fixpoint login_follows_build (l : list Event) : bool :=
  match l with
  | [] => true
  | b :: rest =>
      (if is_build (ev_call b) && Nat.eqb (ev_status b) 0
       then match rest with
            | p :: l0 :: _ =>
                is_password (ev_call p) && is_login (ev_call l0)
                && bool_decide (ev_cwd p = ev_cwd b)
                && bool_decide (ev_cwd l0 = ev_cwd b)
            | _ => false
            end
       else true)
      && login_follows_build rest
  end.

(** The build of [image] for linux/amd64 and the tag of [image] as [ref], as
    they are recorded when they ran in [dir] and returned status 0. *)
Definition built (dir : list string) (image : string) : Event :=
  {| ev_cwd := dir; ev_call := DockerBuildxBuild "linux/amd64" image "."; ev_status := 0 |}.

Definition tagged (dir : list string) (image ref : string) : Event :=
  {| ev_cwd := dir; ev_call := DockerTag image ref; ev_status := 0 |}.

(** Every push in [l] comes directly after the tag of the reference it
    pushes, and the image tagged was built before that tag; [seen] holds the
    events that ran before [l], latest first. *)
Fixpoint built_tagged_pushed (seen l : list Event) : bool :=
  match l with
  | [] => true
  | p :: rest =>
      match ev_call p with
      | DockerPush ref =>
          match seen with
          | t :: before =>
              match ev_call t with
              | DockerTag image _ =>
                  bool_decide (t = tagged (ev_cwd p) image ref)
                  && existsb (fun b => bool_decide (b = built (ev_cwd p) image)) before
              | _ => false
              end
          | [] => false
          end
      | _ => true
      end
      && built_tagged_pushed (p :: seen) rest
  end.

(** ** The sidebar logo (components/sidebar/logo.tsx)

    The component is a function of its [size] property and of what its hooks
    return: the theme context of [useTheme] and the [mounted] state.  Sizes
    are JavaScript numbers, that is IEEE 754 doubles: primitive floats. *)

Module Logo.

Record ThemeContext := { theme : option string; systemTheme : option string }.

Record ImageProps := {
  src : string;
  alt : string;
  width : float;
  height : float;
  className : string;
}.

(** [value === 'literal'] for a value that may be undefined. *)
Definition strict_eq (value : option string) (literal : string) : bool :=
  match value with
  | Some v => String.eqb v literal
  | None => false
  end.

Definition shouldInvert (ctx : ThemeContext) (mounted : bool) : bool :=
  mounted && (strict_eq (theme ctx) "dark"
              || (strict_eq (theme ctx) "system" && strict_eq (systemTheme ctx) "dark")).

(** [Logo({ size = 24 })]: the default stands in for a size that is not given. *)
Definition Logo (size : option float) (ctx : ThemeContext) (mounted : bool) : ImageProps :=
  let size := match size with Some n => n | None => 24%float end in
  {| src := "/logo-pittogramma.svg";
     alt := "Kortix";
     width := size;
     height := size;
     className := (if shouldInvert ctx mounted then "invert" else "") +:+ " flex-shrink-0" |}.

(** The hooks of the component between renders: the [mounted] state, and
    whether the mount effect has run. *)
Record Hooks := { mounted : bool; effect_ran : bool }.

(** [useState(false)], before the first render. *)
Definition first_render : Hooks := {| mounted := false; effect_ran := false |}.

(** [useEffect(() => setMounted(true), [])]: with no dependency the effect
    runs once, after the first render, and never again. *)
Definition commit (h : Hooks) : Hooks :=
  if effect_ran h then h else {| mounted := true; effect_ran := true |}.

(** The hooks as render number [render] sees them, counting from 0. *)
Fixpoint hooks_at (render : nat) : Hooks :=
  match render with
  | 0 => first_render
  | S n => commit (hooks_at n)
  end.

Definition mounted_at (render : nat) : bool := mounted (hooks_at render).

End Logo.

(** ** Stepping through a run *)

(** The equations of the monad and of the primitives, one per step, stated
    on worlds in constructor form so that rewriting keeps them so. *)

Lemma bind_bind {A B C} (m : M A) (k1 : A -> M B) (k2 : B -> M C) (w : World) :
  bind (bind m k1) k2 w = bind m (fun a => bind (k1 a) k2) w.
Proof. unfold bind. destruct (m w) as [[a|n] w']; reflexivity. Qed.

Lemma bind_ret {A B} (a : A) (k : A -> M B) (w : World) :
  bind (ret a) k w = k a w.
Proof. reflexivity. Qed.

Lemma bind_exit {A B} (n : nat) (k : A -> M B) (w : World) :
  bind (exit n) k w = (Exit n, w).
Proof. reflexivity. Qed.

Lemma bind_say {B} (e : Echo) (k : unit -> M B) d f o ev :
  bind (say e) k {| cwd := d; fs := f; out := o; events := ev |}
  = k tt {| cwd := d; fs := f; out := o ++ [e]; events := ev |}.
Proof. reflexivity. Qed.

Lemma say_last (e : Echo) d f o ev :
  say e {| cwd := d; fs := f; out := o; events := ev |}
  = (Next tt, {| cwd := d; fs := f; out := o ++ [e]; events := ev |}).
Proof. reflexivity. Qed.

(** [if cond; then echo ...; fi] *)
Lemma bind_if_say {B} (b : bool) (e : Echo) (k : unit -> M B) d f o ev :
  bind (if b then say e else ret tt) k {| cwd := d; fs := f; out := o; events := ev |}
  = k tt {| cwd := d; fs := f; out := o ++ (if b then [e] else []); events := ev |}.
Proof. destruct b; cbn; rewrite ?app_nil_r; reflexivity. Qed.

Lemma bind_errexit_0 {B} (k : unit -> M B) (w : World) :
  bind (errexit 0) k w = k tt w.
Proof. reflexivity. Qed.

Lemma bind_errexit_S {B} (n : nat) (k : unit -> M B) (w : World) :
  bind (errexit (S n)) k w = (Exit (S n), w).
Proof. reflexivity. Qed.

Lemma bind_spawn {B} (h : Host) (c : Call) (k : Outcome -> M B) d f o ev :
  bind (spawn h c) k {| cwd := d; fs := f; out := o; events := ev |}
  = k (exec h ev d f c)
      {| cwd := d; fs := fs_after (exec h ev d f c); out := o;
         events := ev ++ [{| ev_cwd := d; ev_call := c;
                             ev_status := status (exec h ev d f c) |}] |}.
Proof. reflexivity. Qed.

Lemma bind_test_f {B} (name : string) (k : bool -> M B) d f o ev :
  bind (test_f name) k {| cwd := d; fs := f; out := o; events := ev |}
  = k (is_file f (resolve d name)) {| cwd := d; fs := f; out := o; events := ev |}.
Proof. reflexivity. Qed.

Lemma bind_cd {B} (h : Host) (name : string) (k : unit -> M B) d f o ev :
  bind (cd h name) k {| cwd := d; fs := f; out := o; events := ev |}
  = if String.eqb name ".."
    then k tt {| cwd := removelast d; fs := f; out := o; events := ev |}
    else if dir_exists h (resolve d name)
         then k tt {| cwd := d ++ [name]; fs := f; out := o; events := ev |}
         else (Exit 1, {| cwd := d; fs := f; out := o; events := ev |}).
Proof.
  unfold bind, cd. destruct (String.eqb name ".."); [reflexivity|].
  cbn [fs cwd]. destruct (dir_exists h (resolve d name)); reflexivity.
Qed.

Lemma copied_absent (f : gmap string string) (src dst : string) :
  is_file f src = false -> copied f src dst = f.
Proof. unfold is_file, copied. destruct (f !! src); [discriminate | reflexivity]. Qed.

Lemma moved_absent (f : gmap string string) (src dst : string) :
  is_file f src = false -> moved f src dst = f.
Proof. unfold is_file, moved. destruct (f !! src); [discriminate | reflexivity]. Qed.

(** [if [ -f src ]; then cp src dst; echo ...; fi], once the test has been
    evaluated: the guard makes [cp] succeed, so the block never leaves the
    script. *)
Lemma bind_if_backup {B} (src dst : string) (e : Echo) (k : unit -> M B) d f o ev :
  bind (if is_file f (resolve d src)
        then bind (cp src dst) (fun _ => say e) else ret tt) k
       {| cwd := d; fs := f; out := o; events := ev |}
  = k tt {| cwd := d; fs := copied f (resolve d src) (resolve d dst);
            out := o ++ (if is_file f (resolve d src) then [e] else []);
            events := ev |}.
Proof.
  destruct (is_file f (resolve d src)) eqn:E.
  - unfold bind, cp. cbn [fs cwd]. rewrite E. reflexivity.
  - rewrite bind_ret, (copied_absent _ _ _ E), app_nil_r. reflexivity.
Qed.

(** [if [ -f src ]; then mv src dst; echo ...; fi] *)
Lemma bind_if_restore {B} (src dst : string) (e : Echo) (k : unit -> M B) d f o ev :
  bind (if is_file f (resolve d src)
        then bind (mv src dst) (fun _ => say e) else ret tt) k
       {| cwd := d; fs := f; out := o; events := ev |}
  = k tt {| cwd := d; fs := moved f (resolve d src) (resolve d dst);
            out := o ++ (if is_file f (resolve d src) then [e] else []);
            events := ev |}.
Proof.
  destruct (is_file f (resolve d src)) eqn:E.
  - unfold bind, mv. cbn [fs cwd]. rewrite E. reflexivity.
  - rewrite bind_ret, (moved_absent _ _ _ E), app_nil_r. reflexivity.
Qed.

(** The script's own functions are opened at once; the monad and the
    primitives stay folded and are taken one step at a time. *)
Ltac sh_unfold :=
  unfold script, main, check_prerequisites, build_and_upload_frontend,
    build_and_upload_backend, cleanup_local_images, display_image_info, usage,
    ecr_login, print_status, print_success, print_warning, print_error,
    command_exists, run, run_or_true, echo, echo_e, start.

(** Paths of a known working directory are computed. *)
Ltac sh_paths :=
  repeat match goal with
         | |- context [resolve ?d ?n] =>
             let v := eval vm_compute in (resolve d n) in
             change (resolve d n) with v
         end.

Ltac sh_tidy :=
  cbn [negb status stdout fs_after String.eqb Ascii.eqb Bool.eqb orb hd
       removelast app fst snd];
  cbv beta iota.

(** One step of the script at the head of the goal; an external command
    is replaced by an arbitrary outcome, and each test of a status or of
    the machine opens one goal per answer. *)
Ltac sh_step :=
  lazymatch goal with
  | |- context [if dir_exists ?h ?p then _ else _] =>
      first [ match goal with H : dir_exists h p = _ |- _ => rewrite H end
            | destruct (dir_exists h p) eqn:? ]
  | |- context [bind ?m ?k ?w] =>
      lazymatch m with
      | bind _ _ => rewrite bind_bind
      | ret _ => rewrite bind_ret
      | exit _ => rewrite bind_exit
      | say _ => rewrite bind_say
      | errexit 0 => rewrite bind_errexit_0
      | errexit (S _) => rewrite bind_errexit_S
      | errexit ?st => destruct st
      | spawn ?h ?c =>
          rewrite bind_spawn;
          lazymatch goal with
          | |- context [exec h ?hist ?d ?f c] =>
              destruct (exec h hist d f c) as [? ? ?]
          end
      | test_f _ => rewrite bind_test_f
      | (if is_file _ _ then bind (cp _ _) _ else ret tt) =>
          rewrite bind_if_backup; sh_paths
      | (if is_file _ _ then bind (mv _ _) _ else ret tt) =>
          rewrite bind_if_restore; sh_paths
      | cd _ _ => rewrite bind_cd; sh_paths
      | (if negb (command_v ?h ?n) then say _ else ret tt) => rewrite bind_if_say
      | (if negb (command_v ?h ?n) then _ else _) =>
          first [ match goal with H : command_v h n = _ |- _ => rewrite H end
                | destruct (command_v h n) eqn:? ]
      end
  | |- context [say ?e {| cwd := ?d; fs := ?f; out := ?o; events := ?ev |}] =>
      rewrite say_last
  end; sh_tidy.

(** Set the run apart from the statement around it, so that the steps work
    on one copy of it. *)
Ltac sh_hide :=
  match goal with
  | |- ?P _ => let Q := fresh "Q" in set (Q := P)
  end.

Ltac sh_focus :=
  match goal with
  | |- context [?m (start ?g)] => pattern (m (start g)); sh_hide
  | |- context [?m {| cwd := ?d; fs := ?g; out := ?o; events := ?ev |}] =>
      lazymatch m with pair _ => fail | _ => idtac end;
      pattern (m {| cwd := d; fs := g; out := o; events := ev |}); sh_hide
  end.

Ltac sh_unfocus :=
  match goal with
  | Q := _ |- _ => subst Q; cbv beta; cbn [fst snd cwd fs out events]
  end.

Ltac sh_run := sh_focus; sh_unfold; sh_tidy; repeat sh_step; sh_unfocus.

(** Membership in the events of a finished run, one goal per event. *)
Ltac ev_in H :=
  cbn [events snd fst In] in H;
  repeat (destruct H as [<- | H]); try contradiction.

(** The three releasing options, one goal each. *)
Lemma releases_cases (a : string) :
  releases a = true -> a = "" \/ a = "--frontend-only" \/ a = "--backend-only".
Proof.
  unfold releases. intros H.
  destruct (String.eqb_spec a ""); [auto|].
  destruct (String.eqb_spec a "--frontend-only"); [auto|].
  destruct (String.eqb_spec a "--backend-only"); [auto|discriminate].
Qed.

Lemma existsb_when {A} (p : A -> bool) (b : bool) (x : A) :
  existsb p (if b then [x] else []) = p x && b.
Proof. destruct b; cbn; [rewrite orb_false_r|]; auto using andb_true_r, andb_false_r. Qed.

(** Search the output of a finished run, lines printed under a test
    included. *)
Ltac out_search :=
  unfold printed; cbn [out existsb];
  rewrite ?existsb_app, ?existsb_when; cbn [existsb];
  vm_compute.

(** ** Prerequisites *)

(** C3: in all three releasing modes a missing docker or aws ends the run
    with status 1 before any external command has run and with the files
    untouched. *)
Theorem missing_tool_aborts_before_any_call
    (host : Host) (arg0 : string) (args : list string) (f : gmap string string) :
  releases (hd "" args) = true ->
  command_v host "docker" = false \/ command_v host "aws" = false ->
  let r := script host arg0 args (start f) in
  fst r = Exit 1 /\ events (snd r) = [] /\ fs (snd r) = f.
Proof.
  intros Hrel Hmiss r. subst r.
  assert (command_v host "docker" = false \/
          command_v host "docker" = true /\ command_v host "aws" = false)
    as [Hd | [Hd Ha]]
    by (destruct (command_v host "docker"); tauto).
  all: unfold script; destruct (releases_cases _ Hrel) as [-> | [-> | ->]];
    sh_run; auto.
Qed.

Lemma missing_tool_aborts_witness :
  let r := script (without "docker" happy_host) "release.sh" ["--backend-only"] (start ∅) in
  fst r = Exit 1 /\ events (snd r) = [] /\ fs (snd r) = ∅.
Proof.
  apply (missing_tool_aborts_before_any_call
           (without "docker" happy_host) "release.sh" ["--backend-only"] ∅).
  - reflexivity.
  - left. reflexivity.
Defined.

(** C9: with docker and aws installed and pnpm missing, the prerequisite
    check prints the pnpm warning, passes without running anything, and the
    script goes on: where the first component's directory exists, the first
    external command of the run is that component's image build. *)
Theorem missing_pnpm_only_warns
    (host : Host) (arg0 : string) (args : list string) (f : gmap string string) :
  command_v host "docker" = true ->
  command_v host "aws" = true ->
  command_v host "pnpm" = false ->
  (forall d g o ev,
      check_prerequisites host {| cwd := d; fs := g; out := o; events := ev |}
      = (Next tt,
         {| cwd := d; fs := g;
            out := o ++ [info "Checking prerequisites...";
                         warning "pnpm not found, will use npm for frontend build";
                         success "Prerequisites check passed"];
            events := ev |}))
  /\ (releases (hd "" args) = true ->
      dir_exists host (first_component (hd "" args)) = true ->
      let r := script host arg0 args (start f) in
      printed (warning "pnpm not found, will use npm for frontend build") (snd r) = true
      /\ exists e rest,
          events (snd r) = e :: rest
          /\ ev_cwd e = [first_component (hd "" args)]
          /\ ev_call e = DockerBuildxBuild "linux/amd64"
                           (first_image (hd "" args) +:+ ":" +:+ IMAGE_TAG) ".").
Proof.
  intros Hd Ha Hp. split.
  - intros d g o ev. sh_run. rewrite Hp. cbn [negb].
    rewrite <- !app_assoc. reflexivity.
  - intros Hrel Hdir r. subst r. unfold script.
    destruct (releases_cases _ Hrel) as [E | [E | E]]; rewrite E in *;
      cbn in Hdir; sh_run; rewrite ?Hp;
      (split; [reflexivity | eexists; eexists; repeat split; reflexivity]).
Qed.

Lemma missing_pnpm_only_warns_witness :
  let r := script (without "pnpm" happy_host) "release.sh" ["--frontend-only"] (start ∅) in
  printed (warning "pnpm not found, will use npm for frontend build") (snd r) = true
  /\ exists e rest,
      events (snd r) = e :: rest
      /\ ev_cwd e = ["frontend"]
      /\ ev_call e = DockerBuildxBuild "linux/amd64" "agents/frontend:latest" ".".
Proof.
  apply (missing_pnpm_only_warns
           (without "pnpm" happy_host) "release.sh" ["--frontend-only"] ∅);
    reflexivity.
Defined.
(** ** Fail-fast workflows *)

(** C4: in every mode, an image build that returns a non-zero status is the
    last command of the run: the script leaves with that status, and no other
    command (login, tag, push) ever runs in that component's directory. *)
Theorem build_failure_short_circuits
    (host : Host) (arg0 : string) (args : list string) (f : gmap string string) :
  let r := script host arg0 args (start f) in
  forall e,
    In e (events (snd r)) -> is_build (ev_call e) = true -> ev_status e <> 0 ->
    fst r = Exit (ev_status e)
    /\ last_event (snd r) = Some e
    /\ forall e', In e' (events (snd r)) -> ev_cwd e' = ev_cwd e -> e' = e.
Proof.
  intros r e. subst r. unfold script.
  destruct (String.eqb (hd "" args) "--frontend-only");
    [| destruct (String.eqb (hd "" args) "--backend-only");
       [| destruct (String.eqb (hd "" args) "--help" || String.eqb (hd "" args) "-h");
          [| destruct (String.eqb (hd "" args) "") ]]].
  all: sh_run.
  all: intros Hin Hb Hs; ev_in Hin; cbn in Hb; try discriminate;
    try (exfalso; apply Hs; reflexivity).
  all: split; [reflexivity | split; [reflexivity |]];
    intros e' Hin' Hcwd; ev_in Hin'; cbn in Hcwd; try discriminate; reflexivity.
Qed.

Lemma build_failure_short_circuits_witness :
  let r := script (failing is_build happy_host) "release.sh" ["--backend-only"] (start ∅) in
  let e := {| ev_cwd := ["backend"];
              ev_call := DockerBuildxBuild "linux/amd64" "agents/backend:latest" ".";
              ev_status := 1 |} in
  fst r = Exit 1
  /\ last_event (snd r) = Some e
  /\ forall e', In e' (events (snd r)) -> ev_cwd e' = ["backend"] -> e' = e.
Proof.
  apply (build_failure_short_circuits
           (failing is_build happy_host) "release.sh" ["--backend-only"] ∅
           {| ev_cwd := ["backend"];
              ev_call := DockerBuildxBuild "linux/amd64" "agents/backend:latest" ".";
              ev_status := 1 |}).
  - vm_compute. left. reflexivity.
  - reflexivity.
  - discriminate.
Defined.

(** ** Options that release nothing *)

(** What the options that release nothing hand to [echo]: [--help] and [-h]
    give the usage text and status 0; any other first argument that is not a
    releasing option gives the error line, with the argument spliced into the
    operand of [echo -e], and status 1.  Either way no external command runs
    and the files are untouched. *)
Lemma help_and_unknown_options
    (host : Host) (arg0 : string) (args : list string) (f : gmap string string)
    (a : string) :
  hd "" args = a ->
  let r := script host arg0 args (start f) in
  (a = "--help" \/ a = "-h" ->
   r = (Exit 0,
        {| cwd := []; fs := f;
           out := [ EchoPlain ("Usage: " +:+ arg0 +:+ " [OPTION]");
                    EchoPlain "";
                    EchoPlain "Options:";
                    EchoPlain "  --frontend-only    Build and upload only the frontend image";
                    EchoPlain "  --backend-only     Build and upload only the backend image";
                    EchoPlain "  --help, -h         Show this help message";
                    EchoPlain "";
                    EchoPlain "Default behavior: Build and upload both frontend and backend images" ];
           events := [] |}))
  /\ (releases a = false -> a <> "--help" -> a <> "-h" ->
      r = (Exit 1,
           {| cwd := []; fs := f;
              out := [ error ("Unknown option: " +:+ a);
                       EchoPlain "Use --help for usage information" ];
              events := [] |})).
Proof.
  intros Ha r. subst r. unfold script. rewrite Ha. split.
  - intros [-> | ->]; sh_run; reflexivity.
  - unfold releases. intros Hrel Hh1 Hh2.
    destruct (String.eqb_spec a ""); [discriminate|].
    destruct (String.eqb_spec a "--frontend-only"); [discriminate|].
    destruct (String.eqb_spec a "--backend-only"); [discriminate|].
    destruct (String.eqb_spec a "--help"); [contradiction|].
    destruct (String.eqb_spec a "-h"); [contradiction|].
    cbn [orb]. sh_run. reflexivity.
Qed.

Lemma help_and_unknown_options_witness :
  script happy_host "release.sh" ["--help"] (start ∅)
  = (Exit 0,
     {| cwd := []; fs := ∅;
        out := [ EchoPlain "Usage: release.sh [OPTION]";
                 EchoPlain "";
                 EchoPlain "Options:";
                 EchoPlain "  --frontend-only    Build and upload only the frontend image";
                 EchoPlain "  --backend-only     Build and upload only the backend image";
                 EchoPlain "  --help, -h         Show this help message";
                 EchoPlain "";
                 EchoPlain "Default behavior: Build and upload both frontend and backend images" ];
        events := [] |})
  /\ script happy_host "release.sh" ["--bogus"] (start ∅)
     = (Exit 1,
        {| cwd := []; fs := ∅;
           out := [ EchoE "\033[0;31m[ERROR]\033[0m Unknown option: --bogus";
                    EchoPlain "Use --help for usage information" ];
           events := [] |}).
Proof.
  split.
  - apply (help_and_unknown_options happy_host "release.sh" ["--help"] ∅ "--help");
      [reflexivity | left; reflexivity].
  - apply (help_and_unknown_options happy_host "release.sh" ["--bogus"] ∅ "--bogus");
      [reflexivity | reflexivity | discriminate | discriminate].
Defined.

(** C5: the diagnostic does not name every unrecognised argument.  The
    argument reaches [echo -e] unquoted against escapes, as part of the
    operand of [print_error]: for the argument [\c] the operand ends in
    [\c], at which [echo -e] stops printing, so the line ends after
    [Unknown option: ] without the argument; for [--bo\x67us] the operand
    holds the escape [\x67], which [echo -e] prints as the letter g.  The
    status is 1 and no command runs, as the claim has it. *)
Lemma unknown_option_is_handed_to_echo_e :
  script happy_host "release.sh" ["\c"] (start ∅)
  = (Exit 1,
     {| cwd := []; fs := ∅;
        out := [ EchoE "\033[0;31m[ERROR]\033[0m Unknown option: \c";
                 EchoPlain "Use --help for usage information" ];
        events := [] |})
  /\ script happy_host "release.sh" ["--bo\x67us"] (start ∅)
     = (Exit 1,
        {| cwd := []; fs := ∅;
           out := [ EchoE "\033[0;31m[ERROR]\033[0m Unknown option: --bo\x67us";
                    EchoPlain "Use --help for usage information" ];
           events := [] |}).
Proof. split; vm_compute; reflexivity. Qed.

(** ** Cleanup *)

(** C10: [cleanup_local_images] asks for the removal of the same four
    references, both local tags and both remote tags, on every machine and
    in every state; in each of the three releasing modes the removals of a
    run are exactly these four when the run gets to its end, and none when
    it is cut short; and each of the three modes does get there: with docker
    and aws installed, the directories of the mode's components in place and
    every build, login, tag and push of the run returning status 0, the run
    ends normally and the last four commands it has run are these four
    removals, the only removals of the run, whichever components were
    built. *)
Theorem cleanup_removes_the_same_four
    (host : Host) (arg0 : string) (args : list string) (f : gmap string string) :
  (forall d g o ev,
      calls (snd (cleanup_local_images host
                    {| cwd := d; fs := g; out := o; events := ev |}))
      = (map ev_call ev ++ cleanup_refs)%list)
  /\ (releases (hd "" args) = true ->
      let r := script host arg0 args (start f) in
      List.filter is_rmi (calls (snd r))
      = match fst r with
        | Next _ => cleanup_refs
        | Exit _ => []
        end)
  /\ (releases (hd "" args) = true ->
      command_v host "docker" = true ->
      command_v host "aws" = true ->
      dir_exists host (first_component (hd "" args)) = true ->
      (hd "" args = "" -> dir_exists host "backend" = true) ->
      let r := script host arg0 args (start f) in
      (forall e, In e (events (snd r)) -> gating (ev_call e) = true -> ev_status e = 0) ->
      fst r = Next tt
      /\ exists before,
           calls (snd r) = (before ++ cleanup_refs)%list
           /\ List.filter is_rmi before = []).
Proof.
  split; [| split].
  - intros d g o ev. sh_run. unfold calls. cbn [events].
    rewrite !map_app. cbn [map ev_call]. rewrite <- !app_assoc. reflexivity.
  - intros Hrel r. subst r. unfold script.
    destruct (releases_cases _ Hrel) as [-> | [-> | ->]]; sh_run;
      unfold calls; cbn [events map ev_call List.filter is_rmi fst]; reflexivity.
  - intros Hrel Hd Ha Hf Hb r. subst r. unfold script.
    revert Hf Hb.
    destruct (releases_cases _ Hrel) as [-> | [-> | ->]]; cbn [first_component String.eqb Ascii.eqb Bool.eqb];
      intros Hf Hb; try specialize (Hb eq_refl); sh_run; intros Hok.
    all: try (exfalso;
              match goal with
              | H : forall e, In e ?l -> _ |- _ =>
                  let n := fresh "n" in
                  evar (n : nat);
                  assert (S n = 0) as X;
                  [ subst n; eapply (H {| ev_cwd := _; ev_call := _; ev_status := S _ |});
                    [ cbn [In]; repeat (first [left; reflexivity | right]) | reflexivity ]
                  | discriminate X ]
              end).
    all: split; [reflexivity |];
      unfold calls; cbn [events snd map ev_call];
      eexists; split;
      [ lazymatch goal with
        | |- ?l = _ => 
            let n := eval cbv in (length l - 4) in
            instantiate (1 := firstn n l); reflexivity
        end
      | reflexivity ].
Qed.

Lemma cleanup_removes_the_same_four_witness :
  let r := script happy_host "release.sh" ["--backend-only"] (start ∅) in
  fst r = Next tt
  /\ exists before,
       calls (snd r)
       = (before
          ++ [ DockerRmi "agents/frontend:latest";
               DockerRmi "agents/backend:latest";
               DockerRmi "654553612832.dkr.ecr.eu-central-1.amazonaws.com/agents/frontend:latest";
               DockerRmi "654553612832.dkr.ecr.eu-central-1.amazonaws.com/agents/backend:latest" ])%list
       /\ List.filter is_rmi before = [].
Proof.
  assert (forallb (fun e => Nat.eqb (ev_status e) 0)
            (events (snd (script happy_host "release.sh" ["--backend-only"] (start ∅))))
          = true)
    as Hall by (vm_compute; reflexivity).
  refine (proj2 (proj2 (cleanup_removes_the_same_four
                          happy_host "release.sh" ["--backend-only"] ∅))
            eq_refl eq_refl eq_refl eq_refl _ _).
  - discriminate.
  - intros e Hin _.
    apply (proj1 (forallb_forall _ _) Hall) in Hin.
    apply Nat.eqb_eq. exact Hin.
Defined.

(** ** The run without an option *)

(** C6: with docker and aws installed and both component directories in
    place, a run without an option in which every build, login, tag and push
    returns status 0 ends with status 0, and its tag and push commands are,
    in this order, those of the frontend and of the backend, each with the
    remote reference [ECR_URL/image:IMAGE_TAG]. *)
Theorem full_run_tags_and_pushes_both
    (host : Host) (arg0 : string) (f : gmap string string) :
  command_v host "docker" = true ->
  command_v host "aws" = true ->
  dir_exists host "frontend" = true ->
  dir_exists host "backend" = true ->
  let r := script host arg0 [] (start f) in
  (forall e, In e (events (snd r)) -> gating (ev_call e) = true -> ev_status e = 0) ->
  exit_status r = 0
  /\ List.filter (fun c => is_tag c || is_push c) (calls (snd r))
     = [ DockerTag (FRONTEND_IMAGE_NAME +:+ ":" +:+ IMAGE_TAG)
                   (image_reference ECR_URL FRONTEND_IMAGE_NAME IMAGE_TAG);
         DockerPush (image_reference ECR_URL FRONTEND_IMAGE_NAME IMAGE_TAG);
         DockerTag (BACKEND_IMAGE_NAME +:+ ":" +:+ IMAGE_TAG)
                   (image_reference ECR_URL BACKEND_IMAGE_NAME IMAGE_TAG);
         DockerPush (image_reference ECR_URL BACKEND_IMAGE_NAME IMAGE_TAG) ].
Proof.
  intros Hd Ha Hf Hb r. subst r. sh_run; intros Hok.
  all: try (exfalso;
            match goal with
            | H : forall e, In e ?l -> _ |- _ =>
                let n := fresh "n" in
                evar (n : nat);
                assert (S n = 0) as X;
                [ subst n; eapply (H {| ev_cwd := _; ev_call := _; ev_status := S _ |});
                  [ cbn [In]; repeat (first [left; reflexivity | right]) | reflexivity ]
                | discriminate X ]
            end).
  split; [reflexivity |].
  unfold calls; cbn [events map ev_call List.filter is_tag is_push orb snd]; reflexivity.
Qed.

Lemma full_run_tags_and_pushes_both_witness :
  let r := script happy_host "release.sh" [] (start ∅) in
  exit_status r = 0
  /\ List.filter (fun c => is_tag c || is_push c) (calls (snd r))
     = [ DockerTag (FRONTEND_IMAGE_NAME +:+ ":" +:+ IMAGE_TAG)
                   (image_reference ECR_URL FRONTEND_IMAGE_NAME IMAGE_TAG);
         DockerPush (image_reference ECR_URL FRONTEND_IMAGE_NAME IMAGE_TAG);
         DockerTag (BACKEND_IMAGE_NAME +:+ ":" +:+ IMAGE_TAG)
                   (image_reference ECR_URL BACKEND_IMAGE_NAME IMAGE_TAG);
         DockerPush (image_reference ECR_URL BACKEND_IMAGE_NAME IMAGE_TAG) ].
Proof.
  apply (full_run_tags_and_pushes_both happy_host "release.sh" ∅);
    try reflexivity.
  intros e Hin _.
  assert (forallb (fun e => Nat.eqb (ev_status e) 0)
            (events (snd (script happy_host "release.sh" [] (start ∅)))) = true)
    as Hall by (vm_compute; reflexivity).
  apply (proj1 (forallb_forall _ _) Hall) in Hin.
  apply Nat.eqb_eq. exact Hin.
Defined.




(** ** Registry login *)

Lemma login_follows_build_sound (l : list Event) :
  login_follows_build l = true ->
  forall pre b post,
    l = (pre ++ b :: post)%list -> is_build (ev_call b) = true -> ev_status b = 0 ->
    exists p l0 post',
      post = p :: l0 :: post'
      /\ is_password (ev_call p) = true /\ is_login (ev_call l0) = true
      /\ ev_cwd p = ev_cwd b /\ ev_cwd l0 = ev_cwd b.
Proof.
  intros Hl pre. revert l Hl.
  induction pre as [| q pre IH]; intros l Hl b post -> Hb Hs; cbn in Hl.
  - rewrite Hb, Hs in Hl. cbn in Hl. apply andb_prop in Hl as [Hl _].
    destruct post as [| p [| l0 post']]; try discriminate Hl.
    apply andb_prop in Hl as [Hl Hd2]. apply andb_prop in Hl as [Hl Hd1].
    apply andb_prop in Hl as [Hp Hlogin].
    apply bool_decide_eq_true in Hd1, Hd2.
    exists p, l0, post'. repeat split; assumption.
  - apply andb_prop in Hl as [_ Hl]. exact (IH _ Hl b post eq_refl Hb Hs).
Qed.

(** The login is run once for every component.  Without an option every
    build that succeeds is directly followed, in the same directory, by the
    password command and the login, for the backend as for the frontend; and
    a login that returns a non-zero status, the first of the run or a later
    one, is the last command of the run: the script leaves with that status
    and neither tag nor push runs for that component. *)
Lemma every_component_logs_in_again
    (host : Host) (arg0 : string) (f : gmap string string) :
  let r := script host arg0 [] (start f) in
  (forall pre b post,
      events (snd r) = (pre ++ b :: post)%list ->
      is_build (ev_call b) = true -> ev_status b = 0 ->
      exists p l post',
        post = p :: l :: post'
        /\ is_password (ev_call p) = true /\ is_login (ev_call l) = true
        /\ ev_cwd p = ev_cwd b /\ ev_cwd l = ev_cwd b)
  /\ (forall l,
      In l (events (snd r)) -> is_login (ev_call l) = true -> ev_status l <> 0 ->
      fst r = Exit (ev_status l)
      /\ last_event (snd r) = Some l
      /\ forall e, In e (events (snd r)) -> ev_cwd e = ev_cwd l ->
                   is_tag (ev_call e) = false /\ is_push (ev_call e) = false).
Proof.
  intros r. subst r. sh_run.
  all: split; [apply login_follows_build_sound; vm_compute; reflexivity |].
  all: intros l Hin Hl Hs; ev_in Hin; cbn in Hl; try discriminate;
    try (exfalso; apply Hs; reflexivity).
  all: split; [reflexivity | split; [reflexivity |]];
    intros e Hin Hcwd; ev_in Hin; cbn in Hcwd; try discriminate;
    split; reflexivity.
Qed.

Lemma every_component_logs_in_again_witness :
  let r := script second_login_fails "release.sh" [] (start ∅) in
  let l := {| ev_cwd := ["backend"];
              ev_call := DockerLogin "AWS" "token" ECR_URL;
              ev_status := 1 |} in
  fst r = Exit (ev_status l)
  /\ last_event (snd r) = Some l
  /\ forall e, In e (events (snd r)) -> ev_cwd e = ev_cwd l ->
               is_tag (ev_call e) = false /\ is_push (ev_call e) = false.
Proof.
  intros r l.
  apply (proj2 (every_component_logs_in_again second_login_fails "release.sh" ∅) l).
  - vm_compute. do 7 right. left. reflexivity.
  - reflexivity.
  - discriminate.
Defined.

(** C8: the script does not remember a login.  On a machine whose registry
    accepts the first login of a run and refuses the next, the run without
    an option logs in for the frontend, pushes the frontend, builds the
    backend and then, against the comment [Login to ECR (if not already
    logged in)] above that step, logs in again: that login fails, the script
    ends with status 1, and the backend image is never pushed. *)
Lemma second_login_is_not_cached :
  let r := script second_login_fails "release.sh" [] (start ∅) in
  exit_status r = 1
  /\ map (fun e => (ev_cwd e, ev_status e))
         (List.filter (fun e => is_login (ev_call e)) (events (snd r)))
     = [ (["frontend"], 0); (["backend"], 1) ]
  /\ List.filter is_push (calls (snd r))
     = [ DockerPush "654553612832.dkr.ecr.eu-central-1.amazonaws.com/agents/frontend:latest" ].
Proof. vm_compute. repeat split; reflexivity. Qed.

(** ** Cleanup cannot change the outcome *)

Lemma bind_same {A B} (m1 m2 : M A) (k1 k2 : A -> M B) :
  (forall w, m1 w = m2 w) -> (forall a w, k1 a w = k2 a w) ->
  forall w, bind m1 k1 w = bind m2 k2 w.
Proof.
  intros Hm Hk w. unfold bind. rewrite Hm.
  destruct (m2 w) as [[a|n] w']; [apply Hk | reflexivity].
Qed.

Section SameButRmi.

Variables h1 h2 : Host.
Hypothesis Hsame : same_but_rmi h1 h2.

Lemma spawn_same (c : Call) :
  is_rmi c = false -> forall w, spawn h1 c w = spawn h2 c w.
Proof.
  intros Hc w. unfold spawn.
  destruct Hsame as (_ & _ & He). rewrite (He _ _ _ _ Hc). reflexivity.
Qed.

Lemma run_same (c : Call) :
  is_rmi c = false -> forall w, run h1 c w = run h2 c w.
Proof.
  intros Hc. unfold run. apply bind_same; [apply spawn_same, Hc | reflexivity].
Qed.

Lemma ecr_login_same : forall w, ecr_login h1 w = ecr_login h2 w.
Proof.
  unfold ecr_login.
  apply bind_same; [apply spawn_same; reflexivity | intros pw].
  apply bind_same; [apply spawn_same; reflexivity | reflexivity].
Qed.

Lemma cd_same (name : string) : forall w, cd h1 name w = cd h2 name w.
Proof.
  intros w. unfold cd. destruct Hsame as (_ & Hd & _). rewrite Hd. reflexivity.
Qed.

Lemma check_prerequisites_same :
  forall w, check_prerequisites h1 w = check_prerequisites h2 w.
Proof.
  intros w. unfold check_prerequisites, command_exists.
  destruct Hsame as (Hc & _ & _). rewrite !Hc. reflexivity.
Qed.

Lemma build_and_upload_frontend_same :
  forall w, build_and_upload_frontend h1 w = build_and_upload_frontend h2 w.
Proof.
  unfold build_and_upload_frontend.
  repeat (apply bind_same;
          [ first [ reflexivity | apply cd_same | apply ecr_login_same
                  | apply run_same; reflexivity ]
          | intros ? ]).
  reflexivity.
Qed.

Lemma build_and_upload_backend_same :
  forall w, build_and_upload_backend h1 w = build_and_upload_backend h2 w.
Proof.
  unfold build_and_upload_backend.
  repeat (apply bind_same;
          [ first [ reflexivity | apply cd_same | apply ecr_login_same
                  | apply run_same; reflexivity ]
          | intros ? ]).
  reflexivity.
Qed.

End SameButRmi.

Lemma cleanup_never_exits (h : Host) (w : World) :
  fst (cleanup_local_images h w) = Next tt.
Proof. destruct w as [d g o ev]. sh_run. reflexivity. Qed.

Lemma exit_status_bind_same {A} (m1 m2 : M A) (k1 k2 : A -> M unit) :
  (forall w, m1 w = m2 w) ->
  (forall a w, exit_status (k1 a w) = exit_status (k2 a w)) ->
  forall w, exit_status (bind m1 k1 w) = exit_status (bind m2 k2 w).
Proof.
  intros Hm Hk w. unfold bind. rewrite Hm.
  destruct (m2 w) as [[a|n] w']; [apply Hk | reflexivity].
Qed.

Lemma exit_status_after_cleanup (h : Host) (k : unit -> M unit) (w : World) :
  (forall w', exit_status (k tt w') = 0) ->
  exit_status (bind (cleanup_local_images h) k w) = 0.
Proof.
  intros Hk. unfold bind.
  pose proof (cleanup_never_exits h w) as Hc.
  destruct (cleanup_local_images h w) as [[[]|n] w']; [apply Hk | discriminate Hc].
Qed.

(** C7: image removal cannot change how a run ends.  [cleanup_local_images]
    never leaves the script, whatever the removals return; and two machines
    that differ only in what the removals do end every run, with any
    arguments, with the same exit status. *)
Theorem cleanup_never_changes_the_outcome
    (h1 h2 : Host) (arg0 : string) (args : list string) (f : gmap string string) :
  same_but_rmi h1 h2 ->
  (forall w, fst (cleanup_local_images h1 w) = Next tt)
  /\ exit_status (script h1 arg0 args (start f))
     = exit_status (script h2 arg0 args (start f)).
Proof.
  intros Hsame. split; [apply cleanup_never_exits |].
  unfold script, main.
  repeat match goal with
         | |- context [if ?b then _ else _] => destruct b
         end.
  all: repeat (apply exit_status_bind_same;
               [ first [ reflexivity
                       | apply (check_prerequisites_same _ _ Hsame)
                       | apply (build_and_upload_frontend_same _ _ Hsame)
                       | apply (build_and_upload_backend_same _ _ Hsame) ]
               | intros ? ]).
  all: try reflexivity.
  all: intros w; rewrite !exit_status_after_cleanup; reflexivity.
Qed.

Lemma cleanup_never_changes_the_outcome_witness :
  (forall w, fst (cleanup_local_images happy_host w) = Next tt)
  /\ exit_status (script happy_host "release.sh" [] (start ∅))
     = exit_status (script (failing is_rmi happy_host) "release.sh" [] (start ∅)).
Proof.
  apply (cleanup_never_changes_the_outcome
           happy_host (failing is_rmi happy_host) "release.sh" [] ∅).
  repeat split. intros hist d f c Hc. cbn. rewrite Hc. reflexivity.
Defined.

(** ** The frontend's local configuration file *)

Lemma lookup_copied_dst (f : gmap string string) (src dst : string) :
  copied f src dst !! dst
  = match f !! src with Some c => Some c | None => f !! dst end.
Proof.
  unfold copied. destruct (f !! src); [apply lookup_insert_eq | reflexivity].
Qed.

Lemma lookup_copied_other (f : gmap string string) (src dst p : string) :
  dst <> p -> copied f src dst !! p = f !! p.
Proof.
  intros Hne. unfold copied.
  destruct (f !! src); [apply lookup_insert_ne, Hne | reflexivity].
Qed.

Lemma lookup_moved_dst (f : gmap string string) (src dst : string) :
  moved f src dst !! dst
  = match f !! src with Some c => Some c | None => f !! dst end.
Proof.
  unfold moved. destruct (f !! src); [apply lookup_insert_eq | reflexivity].
Qed.

(** Before an external command is replaced by its outcome, record what the
    machine is known to leave alone. *)
Ltac note_kept h hist d f c :=
  repeat match goal with
         | H : leaves_alone h ?p |- _ =>
             lazymatch goal with
             | _ : fs_after (exec h hist d f c) !! p = _ |- _ => fail
             | _ => pose proof (H hist d f c)
             end
         end.

Ltac sh_step_kept :=
  lazymatch goal with
  | |- context [bind (spawn ?h ?c) ?k ?w] =>
      rewrite bind_spawn;
      lazymatch goal with
      | |- context [exec h ?hist ?d ?f c] =>
          note_kept h hist d f c;
          destruct (exec h hist d f c) as [? ? ?];
          cbn [fs_after] in *
      end;
      sh_tidy
  | _ => sh_step
  end.

Ltac sh_run_kept := sh_focus; sh_unfold; sh_tidy; repeat sh_step_kept; sh_unfocus.

(** Follow a file back through the commands that left it alone. *)
Ltac kept_chain :=
  repeat match goal with
         | H : ?x !! ?p = _ |- context [?x !! ?p] => rewrite H
         end.

(** C1, as the script has it.  Provided the external commands leave
    [.env.local.backup] alone: when [.env.local] is there and every step
    succeeds, its content after the workflow is its content before, whatever
    the commands did to it; and when the commands leave [.env.local] alone
    too and no backup lies about while [.env.local] is absent, the file is
    after the workflow as it was before, on every way out of it. *)
Theorem env_local_after_frontend_workflow
    (host : Host) (f : gmap string string) (o : list Echo) (ev : list Event) :
  let env := "frontend/.env.local" in
  let bak := "frontend/.env.local.backup" in
  let r := build_and_upload_frontend host
             {| cwd := []; fs := f; out := o; events := ev |} in
  leaves_alone host bak ->
  (is_file f env = true -> fst r = Next tt -> fs (snd r) !! env = f !! env)
  /\ (leaves_alone host env -> (f !! env = None -> f !! bak = None) ->
      fs (snd r) !! env = f !! env).
Proof.
  intros env bak r Hbak. subst env bak r. split.
  - intros Hfile. sh_run_kept.
    all: intros Hn; try discriminate Hn.
    rewrite lookup_moved_dst. kept_chain. rewrite lookup_copied_dst.
    unfold is_file in Hfile.
    destruct (f !! "frontend/.env.local"); [reflexivity | discriminate].
  - intros Henv Hstale. sh_run_kept.
    all: rewrite ?lookup_moved_dst; kept_chain;
      rewrite ?lookup_copied_dst, ?lookup_copied_other by discriminate;
      try reflexivity.
    destruct (f !! "frontend/.env.local") eqn:E; [reflexivity |].
    rewrite (Hstale eq_refl). reflexivity.
Qed.

Lemma env_local_after_frontend_workflow_witness :
  let f := <["frontend/.env.local" := "API_URL=http://localhost"]> ∅ in
  let r := build_and_upload_frontend (scribbling_build 0) (start f) in
  fs (snd r) !! "frontend/.env.local" = f !! "frontend/.env.local".
Proof.
  intros f r.
  assert (leaves_alone (scribbling_build 0) "frontend/.env.local.backup") as Hbak.
  { intros hist d g c. cbn. destruct (is_build c); [| reflexivity].
    cbn. apply lookup_insert_ne. discriminate. }
  apply (proj1 (env_local_after_frontend_workflow (scribbling_build 0) f [] [] Hbak)).
  - reflexivity.
  - vm_compute. reflexivity.
Defined.

(** C1, as the claim has it, fails: with [.env.local] absent and a backup
    left behind by an earlier run that was cut short, a workflow in which
    every command succeeds and touches no file moves the old backup into
    place, so the file that was absent before exists afterwards. *)
Lemma stale_backup_becomes_env_local :
  let f := <["frontend/.env.local.backup" := "API_URL=http://old"]> ∅ in
  let r := build_and_upload_frontend happy_host (start f) in
  f !! "frontend/.env.local" = None
  /\ fst r = Next tt
  /\ fs (snd r) !! "frontend/.env.local" = Some "API_URL=http://old".
Proof. vm_compute. repeat split; reflexivity. Qed.

(** How the stale backup comes about, and what a failing step leaves: the
    script leaves at the failing command, the restore block is not run, the
    backup stays behind and so does whatever the command wrote. *)
Example failed_build_leaves_the_backup :
  let f := <["frontend/.env.local" := "API_URL=http://localhost"]> ∅ in
  let r := build_and_upload_frontend (scribbling_build 1) (start f) in
  fst r = Exit 1
  /\ fs (snd r) !! "frontend/.env.local" = Some "API_URL=http://build"
  /\ fs (snd r) !! "frontend/.env.local.backup" = Some "API_URL=http://localhost".
Proof. vm_compute. repeat split; reflexivity. Qed.

(** ** What the exit status tells *)

(** The five ways the [case] can go, one goal each. *)
Ltac script_cases args :=
  unfold script;
  destruct (String.eqb (hd "" args) "--frontend-only");
    [| destruct (String.eqb (hd "" args) "--backend-only");
       [| destruct (String.eqb (hd "" args) "--help" || String.eqb (hd "" args) "-h");
          [| destruct (String.eqb (hd "" args) "") ]]].

(** X1: with any arguments, a run that ends with status 0 ran no build,
    login, tag or push that failed; and a run that ends with another status
    either ends with status 1 without any such command having failed (the
    script's own [exit 1], or a [cd] that failed), or ends with the status
    of the last command it ran, a build, login, tag or push. *)
Theorem exit_status_names_the_failure
    (host : Host) (arg0 : string) (args : list string) (f : gmap string string) :
  let r := script host arg0 args (start f) in
  (exit_status r = 0 ->
   forall e, In e (events (snd r)) -> gating (ev_call e) = true -> ev_status e = 0)
  /\ (exit_status r <> 0 ->
      (exit_status r = 1
       /\ forall e, In e (events (snd r)) -> gating (ev_call e) = true ->
                    ev_status e = 0)
      \/ exists e, last_event (snd r) = Some e
                   /\ gating (ev_call e) = true
                   /\ ev_status e = exit_status r).
Proof.
  intros r. subst r. script_cases args.
  all: sh_run.
  all: unfold exit_status; cbn [fst]; split;
    [ intros H0; try discriminate H0;
      intros e Hin Hg; ev_in Hin; cbn in Hg; try discriminate Hg; reflexivity
    | intros Hn; try (exfalso; apply Hn; reflexivity) ].
  all: first
         [ right; eexists; split; [reflexivity | split; reflexivity]
         | left; split;
           [ reflexivity
           | intros e Hin Hg; ev_in Hin; cbn in Hg; try discriminate Hg;
             reflexivity ] ].
Qed.

Lemma exit_status_names_the_failure_witness :
  let r := script (failing is_tag happy_host) "release.sh" ["--frontend-only"] (start ∅) in
  (exit_status r = 1
   /\ forall e, In e (events (snd r)) -> gating (ev_call e) = true -> ev_status e = 0)
  \/ exists e, last_event (snd r) = Some e
               /\ gating (ev_call e) = true
               /\ ev_status e = exit_status r.
Proof.
  apply (proj2 (exit_status_names_the_failure
                  (failing is_tag happy_host) "release.sh" ["--frontend-only"] ∅)).
  vm_compute. discriminate.
Defined.

(** ** The login pipeline *)




(** ** What the script prints *)

(** X4: with any arguments, a run in which the script prints an [[ERROR]]
    line has run no external command, has left the files as they were and
    ends with status 1: the script reports a missing tool or an unknown
    option, and says nothing of its own when a build, login, tag or push
    fails. *)
Theorem error_line_only_before_any_command
    (host : Host) (arg0 : string) (args : list string) (f : gmap string string) :
  let r := script host arg0 args (start f) in
  existsb is_error_line (out (snd r)) = true ->
  exit_status r = 1 /\ events (snd r) = [] /\ fs (snd r) = f.
Proof.
  intros r. subst r. script_cases args.
  all: sh_run.
  all: out_search; intros H; try discriminate H; repeat split.
Qed.

Lemma error_line_only_before_any_command_witness :
  let r := script (without "aws" happy_host) "release.sh" [] (start ∅) in
  exit_status r = 1 /\ events (snd r) = [] /\ fs (snd r) = ∅.
Proof.
  apply (error_line_only_before_any_command (without "aws" happy_host) "release.sh" [] ∅).
  vm_compute. reflexivity.
Defined.

(** X5: in each releasing mode the closing success line of the mode is
    printed exactly when the run gets to its end; a run that is cut short,
    by a missing tool, a missing directory or a failing command, never
    prints it. *)
Theorem closing_line_iff_completed
    (host : Host) (arg0 : string) (args : list string) (f : gmap string string) :
  releases (hd "" args) = true ->
  let r := script host arg0 args (start f) in
  printed (success (closing_line (hd "" args))) (snd r) = true <-> fst r = Next tt.
Proof.
  intros Hrel r. subst r. unfold script.
  destruct (releases_cases _ Hrel) as [-> | [-> | ->]]; sh_run.
  all: out_search; split; intros H; try discriminate H; reflexivity.
Qed.

Lemma closing_line_iff_completed_witness :
  let r := script happy_host "release.sh" ["--frontend-only"] (start ∅) in
  printed (success (closing_line "--frontend-only")) (snd r) = true <-> fst r = Next tt.
Proof.
  apply (closing_line_iff_completed happy_host "release.sh" ["--frontend-only"] ∅).
  reflexivity.
Defined.

(** ** What is pushed *)

Lemma built_tagged_pushed_sound (seen l : list Event) :
  built_tagged_pushed seen l = true ->
  forall pre p post ref,
    l = (pre ++ p :: post)%list -> ev_call p = DockerPush ref ->
    exists image before between,
      (rev seen ++ pre
       = before ++ built (ev_cwd p) image :: between ++ [tagged (ev_cwd p) image ref])%list.
Proof.
  intros Hl pre. revert seen l Hl.
  induction pre as [| q pre IH]; intros seen l Hl p post ref -> Hp; cbn in Hl.
  - rewrite Hp in Hl. apply andb_prop in Hl as [Hl _].
    destruct seen as [| t before]; [discriminate Hl |].
    destruct (ev_call t) as [| | | image target | |]; try discriminate Hl.
    apply andb_prop in Hl as [Ht Hb].
    apply bool_decide_eq_true in Ht. subst t.
    apply existsb_exists in Hb as (b & Hin & Hb).
    apply bool_decide_eq_true in Hb. subst b.
    apply in_rev, in_split in Hin as (l1 & l2 & Hsplit).
    exists image, l1, l2. cbn [rev]. rewrite Hsplit, app_nil_r, <- app_assoc.
    reflexivity.
  - apply andb_prop in Hl as [_ Hl].
    destruct (IH _ _ Hl p post ref eq_refl Hp) as (image & before & between & Heq).
    exists image, before, between. rewrite <- Heq. cbn [rev].
    rewrite <- app_assoc. reflexivity.
Qed.

(** X7: with any arguments, a push comes directly after the tag of the
    reference it pushes, run in the same directory with status 0, and the
    local image that was tagged was built before that tag, in the same
    directory, for linux/amd64 and with status 0: the script never pushes an
    image it has not just built. *)
Theorem pushed_images_were_built_in_the_run
    (host : Host) (arg0 : string) (args : list string) (f : gmap string string) :
  let r := script host arg0 args (start f) in
  forall pre p post ref,
    events (snd r) = (pre ++ p :: post)%list -> ev_call p = DockerPush ref ->
    exists image before between,
      pre = (before ++ built (ev_cwd p) image
                    :: between ++ [tagged (ev_cwd p) image ref])%list.
Proof.
  intros r. subst r. script_cases args.
  all: sh_run.
  all: apply (built_tagged_pushed_sound []); vm_compute; reflexivity.
Qed.

Lemma pushed_images_were_built_in_the_run_witness :
  let r := script happy_host "release.sh" ["--backend-only"] (start ∅) in
  let p := {| ev_cwd := ["backend"];
              ev_call := DockerPush (image_reference ECR_URL BACKEND_IMAGE_NAME IMAGE_TAG);
              ev_status := 0 |} in
  exists image before between,
    firstn 4 (events (snd r))
    = (before ++ built (ev_cwd p) image
              :: between
              ++ [tagged (ev_cwd p) image
                    (image_reference ECR_URL BACKEND_IMAGE_NAME IMAGE_TAG)])%list.
Proof.
  intros r p.
  apply (pushed_images_were_built_in_the_run happy_host "release.sh" ["--backend-only"] ∅
           (firstn 4 (events (snd r))) p (skipn 5 (events (snd r)))).
  - vm_compute. reflexivity.
  - reflexivity.
Defined.

(** ** The single-component modes *)

(** X8: [--frontend-only] runs nothing in the backend directory and
    [--backend-only] nothing in the frontend directory, whether the run
    succeeds or fails; neither prints the image information that the run
    without an option prints. *)
Theorem single_modes_leave_the_other_component
    (host : Host) (arg0 : string) (f : gmap string string) :
  (let r := script host arg0 ["--frontend-only"] (start f) in
   List.filter (in_dir "backend") (events (snd r)) = []
   /\ printed (info "Image information:") (snd r) = false)
  /\ (let r := script host arg0 ["--backend-only"] (start f) in
      List.filter (in_dir "frontend") (events (snd r)) = []
      /\ printed (info "Image information:") (snd r) = false).
Proof.
  split; intros r; subst r; sh_run.
  all: split; [vm_compute; reflexivity |].
  all: out_search; reflexivity.
Qed.

(** ** Directories and files *)

(** X3: called in any directory, each workflow that returns has come back to
    the directory it was called in (its [cd ..] undoes its [cd]); a workflow
    that leaves the script does so in the directory it was called in when the
    [cd] itself failed, and in the component directory otherwise. *)
Theorem workflows_come_back_to_their_directory
    (host : Host) (d : list string) (f : gmap string string)
    (o : list Echo) (ev : list Event) :
  let w := {| cwd := d; fs := f; out := o; events := ev |} in
  (let r := build_and_upload_frontend host w in
   match fst r with
   | Next _ => cwd (snd r) = d
   | Exit _ => cwd (snd r) = d \/ cwd (snd r) = (d ++ ["frontend"])%list
   end)
  /\ (let r := build_and_upload_backend host w in
      match fst r with
      | Next _ => cwd (snd r) = d
      | Exit _ => cwd (snd r) = d \/ cwd (snd r) = (d ++ ["backend"])%list
      end).
Proof.
  intros w. subst w. split; intros r; subst r.
  all: sh_focus; sh_unfold; cbv beta iota; repeat sh_step; sh_unfocus.
  all: first [apply removelast_last | right; reflexivity | left; reflexivity].
Qed.

Lemma moved_copied_round_trip (f : gmap string string) (src dst : string) :
  src <> dst -> f !! dst = None -> moved (copied f src dst) dst src = f.
Proof.
  intros Hne Hdst. unfold moved, copied. destruct (f !! src) as [c|] eqn:Hsrc.
  - rewrite lookup_insert_eq, (delete_insert_id _ _ _ Hdst). apply insert_id, Hsrc.
  - rewrite Hdst. reflexivity.
Qed.

(** The step of a command on a machine that changes no file. *)
Ltac sh_step_quiet H :=
  lazymatch goal with
  | |- context [bind (spawn ?h ?c) ?k ?w] =>
      rewrite bind_spawn; rewrite ?H;
      lazymatch goal with
      | |- context [exec h ?hist ?d ?f c] =>
          destruct (exec h hist d f c) as [? ? ?]
      end;
      sh_tidy
  | _ => sh_step
  end.

(** X6: on a machine whose commands change no file, and with no
    [.env.local.backup] lying in the frontend directory beforehand, a
    frontend workflow that returns leaves every file as it was (the backup it
    made is gone again), one that is cut short leaves at most the backup of
    [.env.local] behind, and the backend workflow changes no file either
    way. *)
Theorem workflows_leave_the_files_as_they_were
    (host : Host) (f : gmap string string) (o : list Echo) (ev : list Event) :
  touches_no_file host ->
  f !! "frontend/.env.local.backup" = None ->
  let w := {| cwd := []; fs := f; out := o; events := ev |} in
  (let r := build_and_upload_frontend host w in
   match fst r with
   | Next _ => fs (snd r) = f
   | Exit _ => fs (snd r) = f
               \/ exists c, f !! "frontend/.env.local" = Some c
                            /\ fs (snd r) = <["frontend/.env.local.backup" := c]> f
   end)
  /\ fs (snd (build_and_upload_backend host w)) = f.
Proof.
  intros Hquiet Hbak w. subst w. split; [intros r; subst r |].
  all: sh_focus; sh_unfold; sh_tidy; repeat sh_step_quiet Hquiet; sh_unfocus.
  all: try reflexivity.
  all: try (apply moved_copied_round_trip; [discriminate | exact Hbak]).
  all: try (left; reflexivity).
  all: unfold copied; destruct (f !! "frontend/.env.local") as [c|];
    [right; exists c; split; reflexivity | left; reflexivity].
Qed.

Lemma workflows_leave_the_files_as_they_were_witness :
  let f := <["frontend/.env.local" := "API_URL=http://localhost"]> ∅ in
  let w := {| cwd := []; fs := f; out := []; events := [] |} in
  (let r := build_and_upload_frontend happy_host w in
   match fst r with
   | Next _ => fs (snd r) = f
   | Exit _ => fs (snd r) = f
               \/ exists c, f !! "frontend/.env.local" = Some c
                            /\ fs (snd r) = <["frontend/.env.local.backup" := c]> f
   end)
  /\ fs (snd (build_and_upload_backend happy_host w)) = f.
Proof.
  apply (workflows_leave_the_files_as_they_were happy_host
           (<["frontend/.env.local" := "API_URL=http://localhost"]> ∅) [] []).
  - intros hist d g c. reflexivity.
  - vm_compute. reflexivity.
Defined.

(** ** What only changes the output *)

Lemma same_but_out_refl (w : World) : same_but_out w w.
Proof. repeat split. Qed.

Lemma alike_ret {A} (a : A) : alike (ret a) (ret a).
Proof. intros w1 w2 H. split; [reflexivity | exact H]. Qed.

Lemma alike_exit {A} (n : nat) : alike (@exit A n) (@exit A n).
Proof. intros w1 w2 H. split; [reflexivity | exact H]. Qed.

Lemma alike_bind {A B} (m1 m2 : M A) (k1 k2 : A -> M B) :
  alike m1 m2 -> (forall a, alike (k1 a) (k2 a)) -> alike (bind m1 k1) (bind m2 k2).
Proof.
  intros Hm Hk w1 w2 H. unfold bind.
  destruct (Hm w1 w2 H) as [Hf Hw].
  destruct (m1 w1) as [[a1|n1] w1'], (m2 w2) as [[a2|n2] w2']; cbn in Hf, Hw;
    try discriminate Hf.
  - injection Hf as ->. apply Hk, Hw.
  - injection Hf as ->. split; [reflexivity | exact Hw].
Qed.

Lemma alike_bind_ret {A B} (a1 a2 : A) (k1 k2 : A -> M B) :
  alike (k1 a1) (k2 a2) -> alike (bind (ret a1) k1) (bind (ret a2) k2).
Proof. intros H. exact H. Qed.

(** Printing is alike whatever is printed. *)
Lemma alike_say (e1 e2 : Echo) : alike (say e1) (say e2).
Proof. intros w1 w2 H. split; [reflexivity | exact H]. Qed.

Lemma alike_maybe_say (b1 b2 : bool) (e : Echo) :
  alike (if b1 then say e else ret tt) (if b2 then say e else ret tt).
Proof.
  intros w1 w2 H. destruct b1, b2; (split; [reflexivity | exact H]).
Qed.

Lemma alike_errexit (st : nat) : alike (errexit st) (errexit st).
Proof. unfold errexit. destruct (Nat.eqb st 0); [apply alike_ret | apply alike_exit]. Qed.

Lemma alike_test_f (name : string) : alike (test_f name) (test_f name).
Proof.
  intros w1 w2 H. pose proof H as (Hd & Hf & _). unfold test_f. cbn.
  rewrite Hd, Hf. split; [reflexivity | exact H].
Qed.

Lemma alike_cp (src dst : string) : alike (cp src dst) (cp src dst).
Proof.
  intros w1 w2 H. pose proof H as (Hd & Hf & He). unfold cp. rewrite Hd, Hf.
  destruct (is_file (fs w2) (resolve (cwd w2) src));
    (split; [reflexivity |]); [| exact H].
  repeat split; cbn; [exact Hd | exact He].
Qed.

Lemma alike_mv (src dst : string) : alike (mv src dst) (mv src dst).
Proof.
  intros w1 w2 H. pose proof H as (Hd & Hf & He). unfold mv. rewrite Hd, Hf.
  destruct (is_file (fs w2) (resolve (cwd w2) src));
    (split; [reflexivity |]); [| exact H].
  repeat split; cbn; [exact Hd | exact He].
Qed.

Section SameButPnpm.

Variables h1 h2 : Host.
Hypothesis Hsame : same_but_pnpm h1 h2.

Lemma alike_spawn (c : Call) : alike (spawn h1 c) (spawn h2 c).
Proof.
  intros w1 w2 (Hd & Hf & He). destruct Hsame as (_ & _ & Hx).
  unfold spawn. cbn. rewrite Hd, Hf, He, Hx. repeat split.
Qed.

Lemma alike_cd (name : string) : alike (cd h1 name) (cd h2 name).
Proof.
  intros w1 w2 H. pose proof H as (Hd & Hf & He). destruct Hsame as (_ & Hdir & _).
  unfold cd. rewrite Hd, Hdir.
  destruct (String.eqb name "..");
    [| destruct (dir_exists h2 (resolve (cwd w2) name)) ];
    (split; [reflexivity |]); try exact H.
  all: repeat split; cbn; rewrite ?Hd; auto.
Qed.

(** Take two runs of the same code apart, step by step. *)
Ltac alike_steps :=
  repeat lazymatch goal with
         | |- alike (bind (ret _) _) (bind (ret _) _) => apply alike_bind_ret
         | |- alike (bind _ _) (bind _ _) => apply alike_bind; [| intros ?]
         | |- alike (say _) (say _) => apply alike_say
         | |- alike (if _ then say _ else ret tt) (if _ then say _ else ret tt) =>
             apply alike_maybe_say
         | |- alike (if ?b then _ else _) (if ?b then _ else _) => destruct b
         | |- alike (ret _) (ret _) => apply alike_ret
         | |- alike (exit _) (exit _) => apply alike_exit
         | |- alike (errexit _) (errexit _) => apply alike_errexit
         | |- alike (test_f _) (test_f _) => apply alike_test_f
         | |- alike (cp _ _) (cp _ _) => apply alike_cp
         | |- alike (mv _ _) (mv _ _) => apply alike_mv
         | |- alike (spawn _ _) (spawn _ _) => apply alike_spawn
         | |- alike (cd _ _) (cd _ _) => apply alike_cd
         end.

Lemma alike_check_prerequisites :
  alike (check_prerequisites h1) (check_prerequisites h2).
Proof.
  unfold check_prerequisites, command_exists.
  destruct Hsame as (Hc & _ & _).
  rewrite (Hc "docker"), (Hc "aws") by discriminate.
  unfold print_status, print_error, print_warning, print_success, echo_e.
  alike_steps.
Qed.

Lemma alike_build_and_upload_frontend :
  alike (build_and_upload_frontend h1) (build_and_upload_frontend h2).
Proof.
  unfold build_and_upload_frontend, ecr_login, run, print_status, print_success, echo_e.
  alike_steps.
Qed.

Lemma alike_build_and_upload_backend :
  alike (build_and_upload_backend h1) (build_and_upload_backend h2).
Proof.
  unfold build_and_upload_backend, ecr_login, run, print_status, print_success, echo_e.
  alike_steps.
Qed.

Lemma alike_cleanup_local_images :
  alike (cleanup_local_images h1) (cleanup_local_images h2).
Proof.
  unfold cleanup_local_images, run_or_true, print_status, print_success, echo_e.
  alike_steps.
Qed.

Lemma alike_script (arg0 arg0' : string) (args : list string) :
  alike (script h1 arg0 args) (script h2 arg0' args).
Proof.
  unfold script, main, usage, display_image_info.
  repeat match goal with
         | |- context [if ?b then _ else _] => destruct b
         end.
  all: repeat lazymatch goal with
              | |- alike (bind _ _) (bind _ _) => apply alike_bind; [| intros ?]
              | |- alike (check_prerequisites _) _ => apply alike_check_prerequisites
              | |- alike (build_and_upload_frontend _) _ =>
                  apply alike_build_and_upload_frontend
              | |- alike (build_and_upload_backend _) _ =>
                  apply alike_build_and_upload_backend
              | |- alike (cleanup_local_images _) _ => apply alike_cleanup_local_images
              | |- alike (print_status _) _ => apply alike_say
              | |- alike (print_success _) _ => apply alike_say
              | |- alike (print_error _) _ => apply alike_say
              | |- alike (echo _) _ => apply alike_say
              | |- alike (exit _) _ => apply alike_exit
              end.
Qed.

End SameButPnpm.

(** X9: whether pnpm is installed and under which name the script was called
    change nothing but the output.  Two machines that differ at most in
    [command -v pnpm], given the same arguments and files, go through the
    same external commands with the same statuses, end with the same exit
    status, in the same directory, with the same files. *)
Theorem pnpm_and_script_name_only_change_the_output
    (h1 h2 : Host) (arg0 arg0' : string) (args : list string) (f : gmap string string) :
  same_but_pnpm h1 h2 ->
  let r1 := script h1 arg0 args (start f) in
  let r2 := script h2 arg0' args (start f) in
  fst r1 = fst r2
  /\ events (snd r1) = events (snd r2)
  /\ fs (snd r1) = fs (snd r2)
  /\ cwd (snd r1) = cwd (snd r2).
Proof.
  intros Hsame r1 r2. subst r1 r2.
  destruct (alike_script h1 h2 Hsame arg0 arg0' args (start f) (start f)
              (same_but_out_refl _)) as (Hf & Hd & Hfs & He).
  auto.
Qed.

Lemma pnpm_and_script_name_only_change_the_output_witness :
  let r1 := script happy_host "release.sh" [] (start ∅) in
  let r2 := script (without "pnpm" happy_host) "./release.sh" [] (start ∅) in
  fst r1 = fst r2
  /\ events (snd r1) = events (snd r2)
  /\ fs (snd r1) = fs (snd r2)
  /\ cwd (snd r1) = cwd (snd r2).
Proof.
  apply (pnpm_and_script_name_only_change_the_output
           happy_host (without "pnpm" happy_host) "release.sh" "./release.sh" [] ∅).
  repeat split. intros n Hn. cbn.
  destruct (String.eqb_spec n "pnpm"); [contradiction | reflexivity].
Defined.

(** ** The sidebar logo *)

Lemma hooks_after_first_render (n : nat) :
  Logo.hooks_at (S n) = {| Logo.mounted := true; Logo.effect_ran := true |}.
Proof.
  induction n as [| n IH]; [reflexivity |].
  change (Logo.hooks_at (S (S n))) with (Logo.commit (Logo.hooks_at (S n))).
  rewrite IH. reflexivity.
Qed.

(** X10: the first render of the logo, before the mount effect has run, is
    the same under every theme context and is not inverted; in the renders
    after it the logo is inverted exactly when the theme is [dark], or is
    [system] with a dark system theme, so that any other theme keeps it as it
    is whatever the system theme; and the image is square in every render,
    as wide as the size given and 24 wide when none is given. *)
Theorem logo_inverts_only_after_mount_and_in_dark
    (size : option float) (ctx : Logo.ThemeContext) :
  (forall ctx', Logo.Logo size ctx (Logo.mounted_at 0)
                = Logo.Logo size ctx' (Logo.mounted_at 0))
  /\ Logo.className (Logo.Logo size ctx (Logo.mounted_at 0)) = " flex-shrink-0"
  /\ (forall n,
      let props := Logo.Logo size ctx (Logo.mounted_at (S n)) in
      (Logo.className props = "invert flex-shrink-0"
       \/ Logo.className props = " flex-shrink-0")
      /\ (Logo.className props = "invert flex-shrink-0"
          <-> Logo.theme ctx = Some "dark"
              \/ (Logo.theme ctx = Some "system" /\ Logo.systemTheme ctx = Some "dark")))
  /\ (forall m,
      let props := Logo.Logo size ctx m in
      Logo.width props = Logo.height props
      /\ Logo.width props = match size with Some n => n | None => 24%float end).
Proof.
  destruct ctx as [t st]. split; [reflexivity |]. split; [reflexivity |].
  split; [| intros m; split; reflexivity].
  intros n props. subst props. unfold Logo.mounted_at.
  rewrite hooks_after_first_render.
  unfold Logo.Logo, Logo.shouldInvert, Logo.strict_eq. cbn.
  split.
  - destruct t as [t|]; [| right; reflexivity].
    destruct (String.eqb t "dark"); [left; reflexivity |].
    destruct (String.eqb t "system"); [| right; reflexivity].
    destruct st as [s|]; [| right; reflexivity].
    destruct (String.eqb s "dark"); [left | right]; reflexivity.
  - split.
    + destruct t as [t|]; [| discriminate].
      destruct (String.eqb_spec t "dark") as [-> | Hd]; [left; reflexivity |].
      destruct (String.eqb_spec t "system") as [-> | Hs]; [| discriminate].
      destruct st as [s|]; [| discriminate].
      destruct (String.eqb_spec s "dark") as [-> | Hsd]; [| discriminate].
      intros _. right. split; reflexivity.
    + intros [Ht | [Ht Hs]]; subst; reflexivity.
Qed.
